(** * make_admin.py: login, then promote the account to administrator

    A shallow embedding of [src/make_admin.py].  The script makes two
    blocking HTTP calls through the [requests] library and reports on
    standard output.  Its observable behaviour is the sequence of lines it
    prints and of requests it sends, together with what each function
    returns or raises; the embedding keeps exactly that. *)

From Stdlib Require Import ZArith String Ascii List Lia.
From Stdlib Require Import Floats.SpecFloat.
From stdpp Require Import gmap strings pretty.
Import ListNotations.
Local Open Scope string_scope.
Local Set Warnings "-register-all".

(** ** Python values

    [response.json()] yields an arbitrary JSON document as Python data:
    [None], [bool], [int], [float], [str], [list] and [dict] with string
    keys.  The script never checks the shape of what it receives, so the
    whole universe is kept. *)

Inductive pyval : Type :=
  | PNone
  | PBool (b : bool)
  | PInt (n : Z)
  | PFloat (f : spec_float)
  | PStr (s : string)
  | PList (l : list pyval)
  | PDict (d : gmap string pyval).

(** Python truth value testing, as used by [if x:] and [not x]. *)
Definition truthy (v : pyval) : bool :=
  match v with
  | PNone => false
  | PBool b => b
  | PInt n => negb (n =? 0)%Z
  | PFloat f => match f with S754_zero _ => false | _ => true end
  | PStr s => negb (String.length s =? 0)%nat
  | PList l => negb (List.length l =? 0)%nat
  | PDict d => negb (size d =? 0)%nat
  end.

(** [type(v).__name__], which appears in the text of an [AttributeError]. *)
Definition type_name (v : pyval) : string :=
  match v with
  | PNone => "NoneType"
  | PBool _ => "bool"
  | PInt _ => "int"
  | PFloat _ => "float"
  | PStr _ => "str"
  | PList _ => "list"
  | PDict _ => "dict"
  end.

(** ** Exceptions

    The two [except] clauses of the script catch
    [requests.exceptions.RequestException] and nothing else, so exceptions
    are kept by class: the [requests] family (with the member that was
    raised), [AttributeError], and everything else.  Each carries [str(e)]. *)

Inductive request_failure : Type :=
  | ConnectionError
  | Timeout
  | HTTPError
  | JSONDecodeError
  | OtherRequestFailure.

Inductive exn : Type :=
  | RequestException (kind : request_failure) (msg : string)
  | AttributeError (msg : string)
  | OtherError (msg : string).

Inductive outcome (A : Type) : Type :=
  | Returned (a : A)
  | Raised (e : exn).
Arguments Returned {A} a.
Arguments Raised {A} e.

(** ** The HTTP collaborator *)

Record request : Type := Request {
  req_url : string;
  req_headers : list (string * string);
  req_json : option (list (string * string))
}.

(** What the script reads of a [requests.Response]: the status line, the
    final URL, and what [response.json()] does on the body (a parsed value,
    or the exception raised while decoding it). *)
Record response : Type := Response {
  status_code : Z;
  reason : string;
  url : string;
  json_body : outcome pyval
}.

(** ** Effects

    A run is the ordered trace of what was printed and what was sent, and an
    outcome.  [print] is taken to succeed. *)

Inductive event : Type :=
  | Printed (line : string)
  | Posted (r : request).

Definition M (A : Type) : Type := (list event * outcome A)%type.

Definition trace {A} (m : M A) : list event := fst m.
Definition result {A} (m : M A) : outcome A := snd m.

Definition mret {A} (a : A) : M A := ([], Returned a).

Definition raise {A} (e : exn) : M A := ([], Raised e).

Definition mbind {A B} (m : M A) (k : A -> M B) : M B :=
  match m with
  | (t, Returned a) => let (t', o) := k a in ((t ++ t')%list, o)
  | (t, Raised e) => (t, Raised e)
  end.

Notation "x <- c ;; k" := (mbind c (fun x => k))
  (at level 100, c at next level, right associativity).
Notation "c ;; k" := (mbind c (fun _ => k))
  (at level 100, right associativity).

Definition print (line : string) : M unit := ([Printed line], Returned tt).

Definition is_request_exception (e : exn) : option string :=
  match e with
  | RequestException _ msg => Some msg
  | _ => None
  end.

(** [try: body  except requests.exceptions.RequestException as e: handler]
    where the handler receives [str(e)]. *)
Definition try_except_RequestException {A}
    (body : M A) (handler : string -> M A) : M A :=
  match body with
  | (t, Returned a) => (t, Returned a)
  | (t, Raised e) =>
      match is_request_exception e with
      | Some msg => let (t', o) := handler msg in ((t ++ t')%list, o)
      | None => (t, Raised e)
      end
  end.

(** [v.get(key, dflt)]: defined on a [dict] only; any other value has no
    attribute [get]. *)
Definition get (v : pyval) (key : string) (dflt : pyval) : M pyval :=
  match v with
  | PDict d => mret (default dflt (d !! key))
  | _ => raise (AttributeError
                  ("'" +:+ type_name v +:+ "' object has no attribute 'get'"))
  end.

(** [Response.raise_for_status()] of the [requests] library.  It builds a
    message when [400 <= status_code < 500] (client error) or
    [500 <= status_code < 600] (server error) and raises [HTTPError] with
    it; for every other status, informational and redirection classes
    included, it returns without raising. *)
Definition http_error_msg (r : response) : option string :=
  if ((400 <=? status_code r) && (status_code r <? 500))%Z then
    Some (pretty (status_code r) +:+ " Client Error: " +:+ reason r
          +:+ " for url: " +:+ url r)
  else if ((500 <=? status_code r) && (status_code r <? 600))%Z then
    Some (pretty (status_code r) +:+ " Server Error: " +:+ reason r
          +:+ " for url: " +:+ url r)
  else None.

Definition raise_for_status (r : response) : M unit :=
  match http_error_msg r with
  | Some msg => raise (RequestException HTTPError msg)
  | None => mret tt
  end.

Definition json (r : response) : M pyval := ([], json_body r).

(** ** Configuration *)

Definition BASE_URL : string := "https://web-production-5dffa.up.railway.app".
Definition EMAIL : string := "omarAbdelghany56@gmail.com".
Definition PASSWORD : string := "omarAbdelghany56@gmail.com".

Definition nl : string := String "010"%char "".

Fixpoint str_mul (s : string) (n : nat) : string :=
  match n with
  | O => ""
  | S n' => s +:+ str_mul s n'
  end.

(** ** The script *)

Section Script.

(** What [requests.post] does for a request: raise, or hand back a
    response.  The remote service and the network sit behind it. *)
Variable network : request -> outcome response.

(** The text an f-string field gives for a value that is not a [str]
    ([repr] of numbers, [None], containers); for a [str] the field is the
    string itself. *)
Variable repr : pyval -> string.

Definition fmt (v : pyval) : string :=
  match v with
  | PStr s => s
  | _ => repr v
  end.

Definition requests_post (u : string) (headers : list (string * string))
    (payload : option (list (string * string))) : M response :=
  let r := Request u headers payload in ([Posted r], network r).

Definition login_url : string := BASE_URL +:+ "/api/auth/login".

Definition login_request : request :=
  Request login_url [] (Some [("email", EMAIL); ("password", PASSWORD)]).

Definition login : M pyval :=
  print "🔐 Logging in..." ;;
  let payload := [("email", EMAIL); ("password", PASSWORD)] in
  try_except_RequestException
    (response <- requests_post login_url [] (Some payload) ;;
     raise_for_status response ;;
     data <- json response ;;
     success <- get data "success" PNone ;;
     if truthy success then
       token <- get data "token" PNone ;;
       user <- get data "user" (PDict ∅) ;;
       username <- get user "username" (PStr "User") ;;
       print ("✅ Login successful! Welcome " +:+ fmt username) ;;
       mret token
     else
       error <- get data "error" (PStr "Unknown error") ;;
       print ("❌ Login failed: " +:+ fmt error) ;;
       mret PNone)
    (fun e =>
       print ("❌ Login request failed: " +:+ e) ;;
       mret PNone).

Definition admin_url : string := BASE_URL +:+ "/api/admin/make-me-admin".

Definition admin_headers (token : pyval) : list (string * string) :=
  [("Authorization", "Bearer " +:+ fmt token);
   ("Content-Type", "application/json")].

Definition admin_request (token : pyval) : request :=
  Request admin_url (admin_headers token) None.

Definition make_admin (token : pyval) : M bool :=
  print (nl +:+ "🛡️  Making user admin...") ;;
  let headers :=
    [("Authorization", "Bearer " +:+ fmt token);
     ("Content-Type", "application/json")] in
  try_except_RequestException
    (response <- requests_post admin_url headers None ;;
     raise_for_status response ;;
     data <- json response ;;
     success <- get data "success" PNone ;;
     if truthy success then
       message <- get data "message" (PStr "Success!") ;;
       print ("✅ " +:+ fmt message) ;;
       print (nl +:+ "📝 Next steps:") ;;
       print "1. Logout from the web app" ;;
       print "2. Login again at: https://web-production-5dffa.up.railway.app/login" ;;
       print "3. Access dashboard at: https://web-production-5dffa.up.railway.app/dashboard" ;;
       mret true
     else
       error <- get data "error" (PStr "Unknown error") ;;
       print ("❌ Failed to make admin: " +:+ fmt error) ;;
       mret false)
    (fun e =>
       print ("❌ Make admin request failed: " +:+ e) ;;
       mret false).

Definition main : M unit :=
  print (str_mul "=" 60) ;;
  print "WhatsApp Analytics - Make User Admin" ;;
  print (str_mul "=" 60) ;;
  token <- login ;;
  if negb (truthy token) then
    print (nl +:+ "❌ Failed to login. Exiting.") ;;
    mret tt
  else
    success <- make_admin token ;;
    if success then
      print (nl +:+ str_mul "=" 60) ;;
      print "🎉 All done! You are now an admin." ;;
      print (str_mul "=" 60)
    else
      print (nl +:+ "❌ Failed to complete the process.").

End Script.

(** The interpreter's exit status for [python make_admin.py]: the script
    never calls [sys.exit], so it is 0 when [main()] returns and 1 when an
    exception reaches the top level. *)
Definition exit_status {A} (m : M A) : Z :=
  match result m with
  | Returned _ => 0
  | Raised _ => 1
  end.

(** ** Vocabulary of the specification *)

(** What the first three statements of a [try] block (the call,
    [raise_for_status], [json]) deliver for an answer of the network: the
    parsed body, or the exception that was raised on the way. *)
Definition fetched (o : outcome response) : outcome pyval :=
  match o with
  | Raised e => Raised e
  | Returned r =>
      match http_error_msg r with
      | Some msg => Raised (RequestException HTTPError msg)
      | None => json_body r
      end
  end.

Definition no_get (v : pyval) : exn :=
  AttributeError ("'" +:+ type_name v +:+ "' object has no attribute 'get'").

(** A response with a 2xx status whose body parses to the object [d]. *)
Definition replied_2xx (o : outcome response) (d : gmap string pyval) : Prop :=
  exists r, o = Returned r /\ (200 <= status_code r < 300)%Z
            /\ json_body r = Returned (PDict d).

(** A response that passes [raise_for_status] (any status outside 4xx and
    5xx) whose body parses to the object [d]. *)
Definition replied (o : outcome response) (d : gmap string pyval) : Prop :=
  exists r, o = Returned r /\ http_error_msg r = None
            /\ json_body r = Returned (PDict d).

(** The request fails with a [RequestException] whose text is [msg]:
    [requests.post] raises (connection error, timeout, ...), the status is
    a client or server error, or the body cannot be decoded and the library
    reports that inside its own exception family. *)
Inductive request_fails : outcome response -> string -> Prop :=
  | post_raises kind msg :
      request_fails (Raised (RequestException kind msg)) msg
  | error_status r msg :
      (400 <= status_code r < 600)%Z ->
      http_error_msg r = Some msg ->
      request_fails (Returned r) msg
  | json_raises r kind msg :
      http_error_msg r = None ->
      json_body r = Raised (RequestException kind msg) ->
      request_fails (Returned r) msg.

(** [data.get("success")]. *)
Definition success_field (d : gmap string pyval) : pyval :=
  default PNone (d !! "success").

(** The [user] field is missing or is an object. *)
Definition user_object_or_absent (d : gmap string pyval) : Prop :=
  d !! "user" = None \/ exists u, d !! "user" = Some (PDict u).

(** [user.username] when present, else the placeholder. *)
Definition greeted_name (d : gmap string pyval) : pyval :=
  match d !! "user" with
  | Some (PDict u) => default (PStr "User") (u !! "username")
  | _ => PStr "User"
  end.

Definition login_start : list event :=
  [Printed "🔐 Logging in..."; Posted login_request].

Definition admin_start (repr : pyval -> string) (token : pyval) : list event :=
  [Printed (nl +:+ "🛡️  Making user admin...");
   Posted (admin_request repr token)].

Definition admin_static_lines : list event :=
  [Printed (nl +:+ "📝 Next steps:");
   Printed "1. Logout from the web app";
   Printed "2. Login again at: https://web-production-5dffa.up.railway.app/login";
   Printed "3. Access dashboard at: https://web-production-5dffa.up.railway.app/dashboard"].

Definition header_lines : list event :=
  [Printed (str_mul "=" 60);
   Printed "WhatsApp Analytics - Make User Admin";
   Printed (str_mul "=" 60)].

Definition login_failure_banner : event :=
  Printed (nl +:+ "❌ Failed to login. Exiting.").

Definition final_success_banner : list event :=
  [Printed (nl +:+ str_mul "=" 60);
   Printed "🎉 All done! You are now an admin.";
   Printed (str_mul "=" 60)].

Definition final_failure_line : event :=
  Printed (nl +:+ "❌ Failed to complete the process.").

(** An event that the two operations may emit when [sent] is the one request
    they are allowed to send: no other request, and none of the two closing
    reports of [main]. *)
Definition inner_event (sent : request) (e : event) : Prop :=
  match e with
  | Posted r => r = sent
  | Printed line =>
      line <> "🎉 All done! You are now an admin."
      /\ line <> nl +:+ "❌ Failed to complete the process."
  end.

(** The same response with the [success] field of its body set to [b]. *)
Definition with_success (b : bool) (r : response) : response :=
  match json_body r with
  | Returned (PDict d) =>
      Response (status_code r) (reason r) (url r)
               (Returned (PDict (<["success" := PBool b]> d)))
  | _ => r
  end.

(** A network that gives the same answer to every request. *)
Definition always (o : outcome response) (r : request) : outcome response := o.

(** The four failure paths the script handles.  A request fails when a
    [RequestException] reaches the [except] clause ([request_fails]: raised
    by the call, by the status check on a 4xx or 5xx status, or by the
    decoding inside the library's family); a status outside 2xx that is not
    an error status is not among them.  A refusal is a 2xx object body with
    [success == false].  The two admin paths follow a login that returned a
    truthy token. *)
Inductive expected_failure (network : request -> outcome response)
    (repr : pyval -> string) : Prop :=
  | login_transport_failure msg :
      request_fails (network login_request) msg ->
      expected_failure network repr
  | login_refused d :
      replied_2xx (network login_request) d ->
      d !! "success" = Some (PBool false) ->
      expected_failure network repr
  | admin_transport_failure t token msg :
      login network repr = (t, Returned token) ->
      truthy token = true ->
      request_fails (network (admin_request repr token)) msg ->
      expected_failure network repr
  | admin_refused t token d :
      login network repr = (t, Returned token) ->
      truthy token = true ->
      replied_2xx (network (admin_request repr token)) d ->
      d !! "success" = Some (PBool false) ->
      expected_failure network repr.

(** ** Sample collaborators for the examples *)

(** A network that answers the login endpoint with one outcome and every
    other URL with another. *)
Definition route (login_answer admin_answer : outcome response)
    (r : request) : outcome response :=
  if String.eqb (req_url r) login_url then login_answer else admin_answer.

Definition ok (body : gmap string pyval) : outcome response :=
  Returned (Response 200 "OK" BASE_URL (Returned (PDict body))).

Definition body_welcome : gmap string pyval :=
  {[ "success" := PBool true; "token" := PStr "T";
     "user" := PDict {[ "username" := PStr "u" ]} ]}.

Definition body_user_null : gmap string pyval :=
  {[ "success" := PBool true; "token" := PStr "T"; "user" := PNone ]}.

Definition body_bad_creds : gmap string pyval :=
  {[ "success" := PBool false; "error" := PStr "bad creds" ]}.

Definition body_token_only : gmap string pyval :=
  {[ "success" := PBool true; "token" := PStr "T" ]}.

Definition unauthorized : response :=
  Response 401 "Unauthorized" login_url (Returned PNone).

Definition multiple_choices : response :=
  Response 300 "Multiple Choices" login_url (Returned (PDict body_token_only)).

Definition multiple_choices_null : response :=
  Response 300 "Multiple Choices" login_url (Returned PNone).

Definition body_done : gmap string pyval :=
  {[ "success" := PBool true; "message" := PStr "done" ]}.

Definition body_not_authorized : gmap string pyval :=
  {[ "success" := PBool false; "error" := PStr "not authorized" ]}.

Definition null_body : response :=
  Response 200 "OK" admin_url (Returned PNone).

Definition body_no_token : gmap string pyval :=
  {[ "success" := PBool true; "user" := PDict {[ "username" := PStr "u" ]} ]}.

Definition body_no_token_user_text : gmap string pyval :=
  {[ "success" := PBool true; "user" := PStr "u" ]}.

Definition body_success_text : gmap string pyval :=
  {[ "success" := PStr "false"; "token" := PStr "T" ]}.

(** An instance of [repr]: exact on [None], booleans and integers; the
    examples never print a float or a container. *)
Definition sample_repr (v : pyval) : string :=
  match v with
  | PNone => "None"
  | PBool true => "True"
  | PBool false => "False"
  | PInt n => pretty n
  | _ => "..."
  end.

(** ** Further vocabulary *)

(** The calls of [requests.post] recorded in a trace, each as the
    arguments it was given, in the order of the calls.  A call is recorded
    when the script makes it; what the library then puts on the wire (a
    followed redirect, or nothing when the connection fails) is behind
    [network]. *)
Fixpoint post_calls (t : list event) : list request :=
  match t with
  | [] => []
  | Posted r :: t' => r :: post_calls t'
  | Printed _ :: t' => post_calls t'
  end.

(** A 401 whose body carries the server's own explanation. *)
Definition unauthorized_bad_creds : response :=
  Response 401 "Unauthorized" login_url (Returned (PDict body_bad_creds)).

(** The argument of one of the three [print] statements with which [main]
    closes a run. *)
Definition is_closing_report (line : string) : bool :=
  String.eqb line "🎉 All done! You are now an admin."
  || String.eqb line (nl +:+ "❌ Failed to complete the process.")
  || String.eqb line (nl +:+ "❌ Failed to login. Exiting.").

(** The [print] calls of a trace whose whole argument is a closing report,
    in order.  Calls are compared, not lines of output: a printed argument
    that merely contains such a text after a line break is not one of
    them. *)
Fixpoint closing_report_prints (t : list event) : list string :=
  match t with
  | [] => []
  | Printed line :: t' =>
      if is_closing_report line then line :: closing_report_prints t'
      else closing_report_prints t'
  | Posted _ :: t' => closing_report_prints t'
  end.

(** ** Proof automation *)

(** Every event of an explicit trace is an [inner_event]. *)
Ltac inner_events :=
  cbn; unfold login_start, admin_start, admin_static_lines; cbn [app];
  repeat first
    [ apply List.Forall_nil
    | apply List.Forall_cons;
      [first [reflexivity | split; discriminate]|] ].

(** A concrete network answers with a 2xx response carrying the body. *)
Ltac served_2xx :=
  eexists; split; [reflexivity | split; [cbn; lia | reflexivity]].

(** ** Symbolic evaluation *)

Section Runs.

Variable network : request -> outcome response.
Variable repr : pyval -> string.

Lemma fetch_phase {A} u hd p (k : pyval -> M A) :
  (response <- requests_post network u hd p ;;
   raise_for_status response ;;
   data <- json response ;;
   k data)
  = mbind ([Posted (Request u hd p)], fetched (network (Request u hd p))) k.
Proof.
  unfold requests_post, raise_for_status, json, fetched; cbn.
  destruct (network _) as [r|e]; cbn; [|reflexivity].
  destruct (http_error_msg r); cbn; [reflexivity|].
  destruct (json_body r); cbn; [|reflexivity].
  destruct (k a); reflexivity.
Qed.

Lemma login_run :
  login network repr =
  match fetched (network login_request) with
  | Raised (RequestException _ msg) =>
      ((login_start ++ [Printed ("❌ Login request failed: " +:+ msg)])%list,
       Returned PNone)
  | Raised e => (login_start, Raised e)
  | Returned (PDict d) =>
      if truthy (success_field d) then
        match default (PDict ∅) (d !! "user") with
        | PDict u =>
            ((login_start
              ++ [Printed ("✅ Login successful! Welcome "
                           +:+ fmt repr (default (PStr "User")
                                           (u !! "username")))])%list,
             Returned (default PNone (d !! "token")))
        | v => (login_start, Raised (no_get v))
        end
      else
        ((login_start
          ++ [Printed ("❌ Login failed: "
                       +:+ fmt repr (default (PStr "Unknown error")
                                       (d !! "error")))])%list,
         Returned PNone)
  | Returned v => (login_start, Raised (no_get v))
  end.
Proof.
  unfold login, success_field. rewrite fetch_phase. fold login_request.
  destruct (fetched (network login_request)) as [v|e].
  - destruct v as [| b | n | f | s | l | d]; try reflexivity.
    cbn. destruct (truthy (default PNone (d !! "success"))); [|reflexivity].
    cbn. destruct (default (PDict ∅) (d !! "user")); reflexivity.
  - destruct e; reflexivity.
Qed.

Lemma make_admin_run token :
  make_admin network repr token =
  match fetched (network (admin_request repr token)) with
  | Raised (RequestException _ msg) =>
      ((admin_start repr token
        ++ [Printed ("❌ Make admin request failed: " +:+ msg)])%list,
       Returned false)
  | Raised e => (admin_start repr token, Raised e)
  | Returned (PDict d) =>
      if truthy (success_field d) then
        ((admin_start repr token
          ++ Printed ("✅ " +:+ fmt repr (default (PStr "Success!")
                                            (d !! "message")))
             :: admin_static_lines)%list,
         Returned true)
      else
        ((admin_start repr token
          ++ [Printed ("❌ Failed to make admin: "
                       +:+ fmt repr (default (PStr "Unknown error")
                                       (d !! "error")))])%list,
         Returned false)
  | Returned v => (admin_start repr token, Raised (no_get v))
  end.
Proof.
  unfold make_admin, success_field. rewrite fetch_phase.
  fold (admin_headers repr token). fold (admin_request repr token).
  destruct (fetched (network (admin_request repr token))) as [v|e].
  - destruct v as [| b | n | f | s | l | d]; try reflexivity.
    cbn. destruct (truthy (default PNone (d !! "success"))); reflexivity.
  - destruct e; reflexivity.
Qed.

Lemma main_run :
  main network repr =
  match login network repr with
  | (t, Raised e) => ((header_lines ++ t)%list, Raised e)
  | (t, Returned token) =>
      if truthy token then
        match make_admin network repr token with
        | (t', Raised e) => ((header_lines ++ t ++ t')%list, Raised e)
        | (t', Returned success) =>
            ((header_lines ++ t ++ t'
              ++ (if success then final_success_banner
                  else [final_failure_line]))%list,
             Returned tt)
        end
      else ((header_lines ++ t ++ [login_failure_banner])%list, Returned tt)
  end.
Proof.
  unfold main.
  destruct (login network repr) as [t [token|e]]; [|reflexivity].
  cbn [mbind print app]. destruct (truthy token); cbn [negb].
  - destruct (make_admin network repr token) as [t' [[|]|e]]; cbn;
      rewrite ?app_nil_r; reflexivity.
  - reflexivity.
Qed.

End Runs.

(** ** Status check and request outcomes *)

Lemma status_2xx_passes r :
  (200 <= status_code r < 300)%Z -> http_error_msg r = None.
Proof.
  intros H. unfold http_error_msg.
  destruct (Z.leb_spec 400 (status_code r)); [lia|]. cbn.
  destruct (Z.leb_spec 500 (status_code r)); [lia|]. reflexivity.
Qed.

Lemma error_status_raises r :
  (400 <= status_code r < 600)%Z <-> is_Some (http_error_msg r).
Proof.
  unfold http_error_msg.
  destruct (400 <=? status_code r)%Z eqn:A, (status_code r <? 500)%Z eqn:B,
    (500 <=? status_code r)%Z eqn:C, (status_code r <? 600)%Z eqn:D; cbn;
    rewrite ?Z.leb_le, ?Z.leb_gt, ?Z.ltb_lt, ?Z.ltb_ge in *;
    (split; [intros _; eexists; reflexivity | intros _; lia])
    || (split; [lia | intros [? ?]; discriminate]).
Qed.

Lemma replied_2xx_replied o d : replied_2xx o d -> replied o d.
Proof.
  intros (r & -> & Hs & Hj). exists r. auto using status_2xx_passes.
Qed.

Lemma replied_fetched o d : replied o d <-> fetched o = Returned (PDict d).
Proof.
  split.
  - intros (r & -> & Hs & Hj). cbn. now rewrite Hs.
  - destruct o as [r|e]; cbn; [|discriminate].
    destruct (http_error_msg r) eqn:Hs; [discriminate|].
    intros Hj. exists r. auto.
Qed.

Lemma request_fails_fetched o msg :
  request_fails o msg <-> exists kind, fetched o = Raised (RequestException kind msg).
Proof.
  split.
  - intros [kind m | r m _ Hs | r kind m Hs Hj]; cbn.
    + eauto.
    + rewrite Hs. eauto.
    + rewrite Hs, Hj. eauto.
  - intros [kind H]. destruct o as [r|e]; cbn in H.
    + destruct (http_error_msg r) eqn:Hs.
      * injection H as _ ->. apply error_status; [|assumption].
        apply error_status_raises. rewrite Hs. eauto.
      * eapply json_raises; eassumption.
    + injection H as ->. constructor.
Qed.

(** ** What the two operations can emit *)

Section Emissions.

Variable network : request -> outcome response.
Variable repr : pyval -> string.

Lemma login_events :
  Forall (inner_event login_request) (trace (login network repr)).
Proof.
  rewrite login_run.
  destruct (fetched (network login_request)) as [v|e].
  - destruct v as [| b | n | f | s | l | d]; try solve [inner_events].
    destruct (truthy (success_field d)); [|inner_events].
    destruct (default (PDict ∅) (d !! "user")); inner_events.
  - destruct e; inner_events.
Qed.

Lemma make_admin_events token :
  Forall (inner_event (admin_request repr token))
         (trace (make_admin network repr token)).
Proof.
  rewrite make_admin_run.
  destruct (fetched (network (admin_request repr token))) as [v|e].
  - destruct v as [| b | n | f | s | l | d]; try solve [inner_events].
    destruct (truthy (success_field d)); inner_events.
  - destruct e; inner_events.
Qed.

End Emissions.

(** ** Login *)

(** C1 (amended).  For every login response with a 2xx status whose parsed
    body is an object with [success == true] and whose [user] field is
    missing or is itself an object, [login()] returns the body's [token]
    field ([None] when there is none) and its only output after the opening
    line is the greeting, made with [user.username] when present and with
    the placeholder ["User"] otherwise. *)
Theorem login_success network repr d :
  replied_2xx (network login_request) d ->
  d !! "success" = Some (PBool true) ->
  user_object_or_absent d ->
  login network repr =
    ([Printed "🔐 Logging in...";
      Posted login_request;
      Printed ("✅ Login successful! Welcome " +:+ fmt repr (greeted_name d))],
     Returned (default PNone (d !! "token"))).
Proof.
  intros Hr Hs Hu. rewrite login_run.
  apply replied_2xx_replied, replied_fetched in Hr. rewrite Hr.
  unfold success_field, greeted_name. rewrite Hs. cbn.
  destruct Hu as [Hu | [u Hu]]; rewrite Hu; reflexivity.
Qed.

Lemma login_success_witness :
  login (route (ok body_welcome) (ok ∅)) sample_repr
  = ([Printed "🔐 Logging in...";
      Posted login_request;
      Printed "✅ Login successful! Welcome u"],
     Returned (PStr "T")).
Proof.
  assert (H1 : replied_2xx (route (ok body_welcome) (ok ∅) login_request)
                           body_welcome) by served_2xx.
  assert (H2 : body_welcome !! "success" = Some (PBool true)) by reflexivity.
  assert (H3 : user_object_or_absent body_welcome)
    by (right; eexists; reflexivity).
  exact (login_success _ sample_repr body_welcome H1 H2 H3).
Defined.

(** C1 as stated fails when the body carries [user: null]: the default of
    [data.get("user", {})] is not used for a key that is present, and
    [None] has no [get]. *)
Lemma login_success_user_null :
  replied_2xx (route (ok body_user_null) (ok ∅) login_request) body_user_null
  /\ body_user_null !! "success" = Some (PBool true)
  /\ login (route (ok body_user_null) (ok ∅)) sample_repr
     = ([Printed "🔐 Logging in..."; Posted login_request],
        Raised (AttributeError "'NoneType' object has no attribute 'get'"))
  /\ result (login (route (ok body_user_null) (ok ∅)) sample_repr)
     <> Returned (default PNone (body_user_null !! "token")).
Proof.
  split; [served_2xx | repeat split]. discriminate.
Qed.

(** C2.  For every login response with a 2xx status whose parsed body has
    [success == false], [login()] prints the [error] field of the body, or
    ["Unknown error"] when the field is absent, and returns [None]. *)
Theorem login_application_failure network repr d :
  replied_2xx (network login_request) d ->
  d !! "success" = Some (PBool false) ->
  login network repr =
    ([Printed "🔐 Logging in...";
      Posted login_request;
      Printed ("❌ Login failed: "
               +:+ fmt repr (default (PStr "Unknown error") (d !! "error")))],
     Returned PNone).
Proof.
  intros Hr Hs. rewrite login_run.
  apply replied_2xx_replied, replied_fetched in Hr. rewrite Hr.
  unfold success_field. rewrite Hs. reflexivity.
Qed.

Lemma login_application_failure_witness :
  login (route (ok body_bad_creds) (ok ∅)) sample_repr
  = ([Printed "🔐 Logging in...";
      Posted login_request;
      Printed "❌ Login failed: bad creds"],
     Returned PNone).
Proof.
  assert (H1 : replied_2xx (route (ok body_bad_creds) (ok ∅) login_request)
                           body_bad_creds) by served_2xx.
  assert (H2 : body_bad_creds !! "success" = Some (PBool false))
    by reflexivity.
  exact (login_application_failure _ sample_repr body_bad_creds H1 H2).
Defined.

(** C3 (amended).  For every transport-level failure during login (a
    connection error, a timeout or any other [RequestException] raised by
    the call, or an HTTP status in the 4xx or 5xx class), [login()] catches
    the exception, prints its text after ["Login request failed: "], and
    returns [None]; nothing propagates. *)
Theorem login_request_failure network repr msg :
  request_fails (network login_request) msg ->
  login network repr =
    ([Printed "🔐 Logging in...";
      Posted login_request;
      Printed ("❌ Login request failed: " +:+ msg)],
     Returned PNone).
Proof.
  intros H. rewrite login_run.
  apply request_fails_fetched in H as [kind H]. rewrite H. reflexivity.
Qed.

Lemma login_request_failure_witness :
  login (route (Raised (RequestException ConnectionError "Connection refused"))
               (ok ∅)) sample_repr
  = ([Printed "🔐 Logging in...";
      Posted login_request;
      Printed "❌ Login request failed: Connection refused"],
     Returned PNone)
  /\ login (route (Returned unauthorized) (ok ∅)) sample_repr
     = ([Printed "🔐 Logging in...";
         Posted login_request;
         Printed ("❌ Login request failed: 401 Client Error: Unauthorized"
                  +:+ " for url: " +:+ login_url)],
        Returned PNone).
Proof.
  split.
  - exact (login_request_failure _ sample_repr _ (post_raises _ _)).
  - assert (H : request_fails
                  (route (Returned unauthorized) (ok ∅) login_request)
                  ("401 Client Error: Unauthorized for url: " +:+ login_url))
      by (apply error_status; [cbn; lia | reflexivity]).
    exact (login_request_failure _ sample_repr _ H).
Defined.

(** C3 as stated fails for a status outside 2xx that is not an error
    status: [raise_for_status] lets a 300 through, and the body is read as
    on a 200. *)
Lemma login_status_300_proceeds :
  ~ (200 <= status_code multiple_choices < 300)%Z
  /\ login (route (Returned multiple_choices) (ok ∅)) sample_repr
     = ([Printed "🔐 Logging in...";
         Posted login_request;
         Printed "✅ Login successful! Welcome User"],
        Returned (PStr "T"))
  /\ result (login (route (Returned multiple_choices) (ok ∅)) sample_repr)
     <> Returned PNone.
Proof.
  split; [cbn; lia | split; [reflexivity | discriminate]].
Qed.

(** ** Make admin *)

(** C4.  For every admin response with a 2xx status whose parsed body has
    [success == true], [make_admin()] returns [True]; it prints the
    [message] field of the body, or ["Success!"] when the field is absent,
    and then the follow-up instructions: the heading and the three lines
    for logout, the login URL and the dashboard URL. *)
Theorem make_admin_success network repr token d :
  replied_2xx (network (admin_request repr token)) d ->
  d !! "success" = Some (PBool true) ->
  make_admin network repr token =
    ([Printed (nl +:+ "🛡️  Making user admin...");
      Posted (admin_request repr token);
      Printed ("✅ " +:+ fmt repr (default (PStr "Success!") (d !! "message")));
      Printed (nl +:+ "📝 Next steps:");
      Printed "1. Logout from the web app";
      Printed "2. Login again at: https://web-production-5dffa.up.railway.app/login";
      Printed "3. Access dashboard at: https://web-production-5dffa.up.railway.app/dashboard"],
     Returned true).
Proof.
  intros Hr Hs. rewrite make_admin_run.
  apply replied_2xx_replied, replied_fetched in Hr. rewrite Hr.
  unfold success_field. rewrite Hs. reflexivity.
Qed.

Lemma make_admin_success_witness :
  make_admin (route (ok body_welcome) (ok body_done)) sample_repr (PStr "T")
  = ([Printed (nl +:+ "🛡️  Making user admin...");
      Posted (Request admin_url
                      [("Authorization", "Bearer T");
                       ("Content-Type", "application/json")] None);
      Printed "✅ done";
      Printed (nl +:+ "📝 Next steps:");
      Printed "1. Logout from the web app";
      Printed "2. Login again at: https://web-production-5dffa.up.railway.app/login";
      Printed "3. Access dashboard at: https://web-production-5dffa.up.railway.app/dashboard"],
     Returned true).
Proof.
  assert (H1 : replied_2xx
                 (route (ok body_welcome) (ok body_done)
                        (admin_request sample_repr (PStr "T")))
                 body_done) by served_2xx.
  assert (H2 : body_done !! "success" = Some (PBool true)) by reflexivity.
  exact (make_admin_success _ sample_repr (PStr "T") body_done H1 H2).
Defined.

(** C5 (amended).  [make_admin()] returns [False] in exactly two cases.
    When the response passes the status check and its body is an object
    whose [success] field is false, otherwise falsy or missing, it prints
    the [error] field, or ["Unknown error"] when the field is absent.  When
    the request fails with a [RequestException] (connection error, timeout,
    4xx or 5xx status, undecodable body reported by the library), it prints
    the text of the exception after ["Make admin request failed: "].  An
    exception leaves [make_admin()] only outside these cases and outside any
    object body. *)
Theorem make_admin_false network repr token :
  (forall d,
      replied (network (admin_request repr token)) d ->
      truthy (success_field d) = false ->
      make_admin network repr token =
        ([Printed (nl +:+ "🛡️  Making user admin...");
          Posted (admin_request repr token);
          Printed ("❌ Failed to make admin: "
                   +:+ fmt repr (default (PStr "Unknown error") (d !! "error")))],
         Returned false))
  /\ (forall msg,
         request_fails (network (admin_request repr token)) msg ->
         make_admin network repr token =
           ([Printed (nl +:+ "🛡️  Making user admin...");
             Posted (admin_request repr token);
             Printed ("❌ Make admin request failed: " +:+ msg)],
            Returned false))
  /\ (result (make_admin network repr token) = Returned false ->
      (exists d, replied (network (admin_request repr token)) d
                 /\ truthy (success_field d) = false)
      \/ (exists msg, request_fails (network (admin_request repr token)) msg))
  /\ (forall e,
         result (make_admin network repr token) = Raised e ->
         (forall d, ~ replied (network (admin_request repr token)) d)
         /\ (forall msg,
               ~ request_fails (network (admin_request repr token)) msg)).
Proof.
  rewrite make_admin_run.
  repeat split.
  - intros d Hr Hs. apply replied_fetched in Hr. rewrite Hr, Hs. reflexivity.
  - intros msg H. apply request_fails_fetched in H as [kind H].
    rewrite H. reflexivity.
  - destruct (fetched (network (admin_request repr token))) as [v|e] eqn:Hf.
    + destruct v as [| b | n | f | s | l | d]; try discriminate.
      destruct (truthy (success_field d)) eqn:Hs; [discriminate|].
      intros _. left. exists d. split; [|assumption].
      now apply replied_fetched.
    + destruct e as [kind msg| |]; try discriminate.
      intros _. right. exists msg. apply request_fails_fetched. eauto.
  - intros d Hr. apply replied_fetched in Hr. rewrite Hr in H.
    destruct (truthy (success_field d)); discriminate.
  - intros msg Hq. apply request_fails_fetched in Hq as [kind Hq].
    rewrite Hq in H. discriminate.
Qed.

Lemma make_admin_false_witness :
  make_admin (route (ok body_welcome) (ok body_not_authorized))
             sample_repr (PStr "T")
  = ([Printed (nl +:+ "🛡️  Making user admin...");
      Posted (admin_request sample_repr (PStr "T"));
      Printed "❌ Failed to make admin: not authorized"],
     Returned false)
  /\ make_admin (route (ok body_welcome)
                       (Raised (RequestException Timeout "Read timed out.")))
                sample_repr (PStr "T")
     = ([Printed (nl +:+ "🛡️  Making user admin...");
         Posted (admin_request sample_repr (PStr "T"));
         Printed "❌ Make admin request failed: Read timed out."],
        Returned false).
Proof.
  split.
  - assert (H1 : replied
                   (route (ok body_welcome) (ok body_not_authorized)
                          (admin_request sample_repr (PStr "T")))
                   body_not_authorized)
      by (eexists; split; [reflexivity | split; reflexivity]).
    assert (H2 : truthy (success_field body_not_authorized) = false)
      by reflexivity.
    exact (proj1 (make_admin_false _ sample_repr (PStr "T"))
                 body_not_authorized H1 H2).
  - exact (proj1 (proj2 (make_admin_false _ sample_repr (PStr "T")))
                 _ (post_raises Timeout "Read timed out.")).
Defined.

(** C5 as stated fails twice.  On a 2xx response with the empty object
    [make_admin()] returns [False] although [success] is not [false] (it is
    missing) and nothing failed in transport; on a 2xx response whose body
    is [null] the [AttributeError] of [data.get] leaves the function. *)
Lemma make_admin_false_other_cases :
  (replied_2xx (route (ok body_welcome) (ok ∅)
                      (admin_request sample_repr (PStr "T"))) ∅
   /\ (∅ : gmap string pyval) !! "success" <> Some (PBool false)
   /\ (forall msg,
         ~ request_fails (route (ok body_welcome) (ok ∅)
                                (admin_request sample_repr (PStr "T"))) msg)
   /\ make_admin (route (ok body_welcome) (ok ∅)) sample_repr (PStr "T")
      = ([Printed (nl +:+ "🛡️  Making user admin...");
          Posted (admin_request sample_repr (PStr "T"));
          Printed "❌ Failed to make admin: Unknown error"],
         Returned false))
  /\ ((200 <= status_code null_body < 300)%Z
      /\ make_admin (route (ok body_welcome) (Returned null_body))
                    sample_repr (PStr "T")
         = ([Printed (nl +:+ "🛡️  Making user admin...");
             Posted (admin_request sample_repr (PStr "T"))],
            Raised (AttributeError
                      "'NoneType' object has no attribute 'get'"))).
Proof.
  split; split.
  - served_2xx.
  - split; [discriminate | split; [|reflexivity]].
    intros msg H. apply request_fails_fetched in H as [kind H].
    discriminate H.
  - cbn; lia.
  - reflexivity.
Qed.

(** ** Orchestration *)

Lemma endpoints_differ : login_url <> admin_url.
Proof. discriminate. Qed.

Lemma header_no_post r : ~ In (Posted r) header_lines.
Proof. cbn. intuition discriminate. Qed.

Lemma inner_event_posted sent l r :
  Forall (inner_event sent) l -> In (Posted r) l -> r = sent.
Proof.
  intros H Hin. rewrite List.Forall_forall in H. exact (H _ Hin).
Qed.

Lemma inner_event_not_final sent l :
  Forall (inner_event sent) l ->
  ~ In (Printed "🎉 All done! You are now an admin.") l
  /\ ~ In final_failure_line l.
Proof.
  intros H. rewrite List.Forall_forall in H.
  split; intros Hin; apply H in Hin; cbn in Hin; tauto.
Qed.

Lemma make_admin_begins network repr token :
  exists rest,
    trace (make_admin network repr token) = (admin_start repr token ++ rest)%list.
Proof.
  rewrite make_admin_run.
  destruct (fetched (network (admin_request repr token))) as [v|e].
  - destruct v as [| b | n | f | s | l | d];
      try (exists []; cbn [trace fst]; now rewrite app_nil_r).
    destruct (truthy (success_field d)); eexists; reflexivity.
  - destruct e; try (exists []; cbn [trace fst]; now rewrite app_nil_r).
    eexists; reflexivity.
Qed.

(** Without a truthy token the run stops after the login. *)
Lemma main_without_token network repr t token :
  login network repr = (t, Returned token) ->
  truthy token = false ->
  main network repr
  = ((header_lines ++ t ++ [login_failure_banner])%list, Returned tt)
  /\ forall r, In (Posted r) (trace (main network repr)) -> r = login_request.
Proof.
  intros Hl Ht. pose proof (login_events network repr) as He.
  rewrite main_run, Hl, Ht. rewrite Hl in He. cbn [trace fst] in *.
  split; [reflexivity|]. intros r Hin.
  apply in_app_or in Hin as [Hin | Hin];
    [exfalso; exact (header_no_post _ Hin)|].
  apply in_app_or in Hin as [Hin | Hin].
  - exact (inner_event_posted _ _ _ He Hin).
  - cbn in Hin. destruct Hin as [Hin | []]. discriminate Hin.
Qed.

(** A request to the admin endpoint in a run of [main] is the one made for
    the truthy token that [login] returned, and it comes after everything
    [login] did. *)
Lemma admin_post_after_token network repr r :
  In (Posted r) (trace (main network repr)) ->
  req_url r = admin_url ->
  exists t token rest,
    login network repr = (t, Returned token)
    /\ truthy token = true
    /\ r = admin_request repr token
    /\ trace (main network repr)
       = (header_lines ++ t
          ++ Printed (nl +:+ "🛡️  Making user admin...") :: Posted r :: rest)%list.
Proof.
  intros Hin Hu. pose proof (login_events network repr) as He.
  destruct (login network repr) as [t [token|e]] eqn:Hl; cbn [trace fst] in He.
  - destruct (truthy token) eqn:Ht.
    + pose proof (make_admin_events network repr token) as Ha.
      destruct (make_admin_begins network repr token) as [rest Hb].
      rewrite main_run, Hl, Ht in Hin |- *.
      assert (Hr : r = admin_request repr token).
      { destruct (make_admin network repr token) as [t' [success|e]];
          cbn [trace fst] in *;
          (apply in_app_or in Hin as [Hin | Hin];
             [exfalso; exact (header_no_post _ Hin)|]);
          (apply in_app_or in Hin as [Hin | Hin];
             [apply (inner_event_posted _ _ _ He) in Hin; subst r;
              exfalso; exact (endpoints_differ Hu)|]).
        - apply in_app_or in Hin as [Hin | Hin].
          + exact (inner_event_posted _ _ _ Ha Hin).
          + exfalso. destruct success; cbn in Hin; intuition discriminate.
        - exact (inner_event_posted _ _ _ Ha Hin). }
      subst r. exists t, token.
      destruct (make_admin network repr token) as [t' [success|e]];
        cbn [trace fst] in *; subst t'.
      * eexists. repeat split; try reflexivity. exact Ht.
      * eexists. repeat split; try reflexivity. exact Ht.
    + exfalso.
      destruct (main_without_token network repr t token Hl Ht) as [_ Hp].
      apply Hp in Hin. subst r. exact (endpoints_differ Hu).
  - exfalso. rewrite main_run, Hl in Hin. cbn [trace fst] in Hin.
    apply in_app_or in Hin as [Hin | Hin];
      [exact (header_no_post _ Hin)|].
    apply (inner_event_posted _ _ _ He) in Hin. subst r.
    exact (endpoints_differ Hu).
Qed.

(** C6.  [main()] sends a request to the admin endpoint only after
    [login()] has returned a truthy token, and everything [login()] did
    precedes that request.  For every run in which [login()] returns an
    absent token (or any other falsy value), [main()] prints the login
    failure banner and returns normally, and the only request of the run is
    the login request: the admin endpoint is never contacted. *)
Theorem main_stops_without_token network repr :
  (forall r,
      In (Posted r) (trace (main network repr)) ->
      req_url r = admin_url ->
      exists t token rest,
        login network repr = (t, Returned token)
        /\ truthy token = true
        /\ trace (main network repr)
           = (Printed (str_mul "=" 60)
              :: Printed "WhatsApp Analytics - Make User Admin"
              :: Printed (str_mul "=" 60)
              :: t ++ Printed (nl +:+ "🛡️  Making user admin...")
                   :: Posted r :: rest)%list)
  /\ (forall t token,
         login network repr = (t, Returned token) ->
         truthy token = false ->
         main network repr =
           ((Printed (str_mul "=" 60)
             :: Printed "WhatsApp Analytics - Make User Admin"
             :: Printed (str_mul "=" 60)
             :: t ++ [Printed (nl +:+ "❌ Failed to login. Exiting.")])%list,
            Returned tt)
         /\ forall r, In (Posted r) (trace (main network repr)) ->
                      r = login_request /\ req_url r <> admin_url).
Proof.
  split.
  - intros r Hin Hu.
    destruct (admin_post_after_token _ _ _ Hin Hu)
      as (t & token & rest & Hl & Ht & _ & Hm).
    exists t, token, rest. auto.
  - intros t token Hl Ht.
    destruct (main_without_token _ _ _ _ Hl Ht) as [Hm Hp].
    split; [exact Hm|].
    intros r Hin. apply Hp in Hin. subst r.
    split; [reflexivity | exact endpoints_differ].
Qed.

Lemma main_stops_without_token_witness :
  main (route (ok body_bad_creds) (ok body_done)) sample_repr
  = ([Printed (str_mul "=" 60);
      Printed "WhatsApp Analytics - Make User Admin";
      Printed (str_mul "=" 60);
      Printed "🔐 Logging in...";
      Posted login_request;
      Printed "❌ Login failed: bad creds";
      Printed (nl +:+ "❌ Failed to login. Exiting.")],
     Returned tt).
Proof.
  assert (H1 : login (route (ok body_bad_creds) (ok body_done)) sample_repr
               = ([Printed "🔐 Logging in...";
                   Posted login_request;
                   Printed "❌ Login failed: bad creds"],
                  Returned PNone)) by reflexivity.
  assert (H2 : truthy PNone = false) by reflexivity.
  exact (proj1 (proj2 (main_stops_without_token _ sample_repr)
                      _ PNone H1 H2)).
Defined.

(** C7.  When [login()] yields a token, the line of the final success
    banner is in the output of [main()] if and only if [make_admin()]
    returned [True], and the final failure line if and only if it returned
    [False]; in both cases the closing report ends the output and [main()]
    returns. *)
Theorem main_final_report network repr t token :
  login network repr = (t, Returned token) ->
  truthy token = true ->
  (In (Printed "🎉 All done! You are now an admin.")
      (trace (main network repr))
   <-> result (make_admin network repr token) = Returned true)
  /\ (In (Printed (nl +:+ "❌ Failed to complete the process."))
         (trace (main network repr))
      <-> result (make_admin network repr token) = Returned false)
  /\ (forall t' success,
         make_admin network repr token = (t', Returned success) ->
         main network repr =
           ((Printed (str_mul "=" 60)
             :: Printed "WhatsApp Analytics - Make User Admin"
             :: Printed (str_mul "=" 60)
             :: t ++ t'
             ++ (if success then
                   [Printed (nl +:+ str_mul "=" 60);
                    Printed "🎉 All done! You are now an admin.";
                    Printed (str_mul "=" 60)]
                 else
                   [Printed (nl +:+ "❌ Failed to complete the process.")]))%list,
            Returned tt)).
Proof.
  intros Hl Ht.
  pose proof (inner_event_not_final _ _ (login_events network repr))
    as [Hl1 Hl2].
  pose proof (inner_event_not_final _ _ (make_admin_events network repr token))
    as [Ha1 Ha2].
  rewrite main_run, Hl, Ht. rewrite Hl in Hl1, Hl2.
  destruct (make_admin network repr token) as [t' [success|e]];
    cbn [trace result fst snd] in *; unfold final_failure_line in *.
  - split; [|split].
    + split.
      * intros Hin.
        apply in_app_or in Hin as [Hin | Hin];
          [cbn in Hin; exfalso; intuition discriminate|].
        apply in_app_or in Hin as [Hin | Hin]; [tauto|].
        apply in_app_or in Hin as [Hin | Hin]; [tauto|].
        destruct success;
          [reflexivity | cbn in Hin; exfalso; intuition discriminate].
      * intros [= ->]. apply in_or_app; right. apply in_or_app; right.
        apply in_or_app; right. cbn; tauto.
    + split.
      * intros Hin.
        apply in_app_or in Hin as [Hin | Hin];
          [cbn in Hin; exfalso; intuition discriminate|].
        apply in_app_or in Hin as [Hin | Hin]; [tauto|].
        apply in_app_or in Hin as [Hin | Hin]; [tauto|].
        destruct success;
          [cbn in Hin; exfalso; intuition discriminate | reflexivity].
      * intros [= ->]. apply in_or_app; right. apply in_or_app; right.
        apply in_or_app; right. cbn; tauto.
    + intros t'' success' [= -> ->]. reflexivity.
  - split; [|split].
    + split; [|discriminate]. intros Hin. exfalso.
      apply in_app_or in Hin as [Hin | Hin];
        [cbn in Hin; intuition discriminate|].
      apply in_app_or in Hin as [Hin | Hin]; tauto.
    + split; [|discriminate]. intros Hin. exfalso.
      apply in_app_or in Hin as [Hin | Hin];
        [cbn in Hin; intuition discriminate|].
      apply in_app_or in Hin as [Hin | Hin]; tauto.
    + discriminate.
Qed.

Lemma main_final_report_witness :
  main (route (ok body_welcome) (ok body_done)) sample_repr
  = ([Printed (str_mul "=" 60);
      Printed "WhatsApp Analytics - Make User Admin";
      Printed (str_mul "=" 60);
      Printed "🔐 Logging in...";
      Posted login_request;
      Printed "✅ Login successful! Welcome u";
      Printed (nl +:+ "🛡️  Making user admin...");
      Posted (admin_request sample_repr (PStr "T"));
      Printed "✅ done";
      Printed (nl +:+ "📝 Next steps:");
      Printed "1. Logout from the web app";
      Printed "2. Login again at: https://web-production-5dffa.up.railway.app/login";
      Printed "3. Access dashboard at: https://web-production-5dffa.up.railway.app/dashboard";
      Printed (nl +:+ str_mul "=" 60);
      Printed "🎉 All done! You are now an admin.";
      Printed (str_mul "=" 60)],
     Returned tt).
Proof.
  assert (H1 : login (route (ok body_welcome) (ok body_done)) sample_repr
               = ([Printed "🔐 Logging in...";
                   Posted login_request;
                   Printed "✅ Login successful! Welcome u"],
                  Returned (PStr "T"))) by reflexivity.
  assert (H2 : truthy (PStr "T") = true) by reflexivity.
  assert (H3 : make_admin (route (ok body_welcome) (ok body_done))
                          sample_repr (PStr "T")
               = (admin_start sample_repr (PStr "T")
                  ++ Printed "✅ done" :: admin_static_lines,
                  Returned true)%list) by reflexivity.
  exact (proj2 (proj2 (main_final_report _ sample_repr _ _ H1 H2))
               _ true H3).
Defined.

(** C8 (amended).  On each of the four failure paths the script handles
    (the login request fails with a [RequestException]: connection error,
    timeout, 4xx or 5xx status, undecodable body reported by the library;
    the login is refused by a 2xx object body with [success == false]; the
    same two for the admin request after a login that returned a truthy
    token) [main()] returns without raising, the exit status of the script
    is 0 as on a successful run, and the failure is told by the closing
    line of the output alone. *)
Theorem main_completes_on_failure network repr :
  expected_failure network repr ->
  result (main network repr) = Returned tt
  /\ exit_status (main network repr) = 0%Z
  /\ (In (Printed (nl +:+ "❌ Failed to login. Exiting."))
         (trace (main network repr))
      \/ In (Printed (nl +:+ "❌ Failed to complete the process."))
            (trace (main network repr))).
Proof.
  assert (Hstop : forall t,
             login network repr = (t, Returned PNone) ->
             result (main network repr) = Returned tt
             /\ exit_status (main network repr) = 0%Z
             /\ (In (Printed (nl +:+ "❌ Failed to login. Exiting."))
                    (trace (main network repr))
                 \/ In (Printed (nl +:+ "❌ Failed to complete the process."))
                       (trace (main network repr)))).
  { intros t Hl. unfold exit_status. rewrite main_run, Hl.
    cbn [truthy result trace fst snd].
    split; [reflexivity | split; [reflexivity|]].
    left. apply in_or_app. right. apply in_or_app. right. now left. }
  assert (Hfail : forall t token t',
             login network repr = (t, Returned token) ->
             truthy token = true ->
             make_admin network repr token = (t', Returned false) ->
             result (main network repr) = Returned tt
             /\ exit_status (main network repr) = 0%Z
             /\ (In (Printed (nl +:+ "❌ Failed to login. Exiting."))
                    (trace (main network repr))
                 \/ In (Printed (nl +:+ "❌ Failed to complete the process."))
                       (trace (main network repr)))).
  { intros t token t' Hl Ht Ha. unfold exit_status.
    rewrite main_run, Hl, Ht, Ha. cbn [result trace fst snd].
    split; [reflexivity | split; [reflexivity|]].
    right. apply in_or_app. right. apply in_or_app. right.
    apply in_or_app. right. now left. }
  intros [msg H | d Hr Hs | t token msg Hl Ht H | t token d Hl Ht Hr Hs].
  - eapply Hstop. rewrite login_run.
    apply request_fails_fetched in H as [kind H]. rewrite H. reflexivity.
  - eapply Hstop. rewrite login_run.
    apply replied_2xx_replied, replied_fetched in Hr. rewrite Hr.
    unfold success_field. rewrite Hs. reflexivity.
  - eapply Hfail; [exact Hl | exact Ht |]. rewrite make_admin_run.
    apply request_fails_fetched in H as [kind H]. rewrite H. reflexivity.
  - eapply Hfail; [exact Hl | exact Ht |]. rewrite make_admin_run.
    apply replied_2xx_replied, replied_fetched in Hr. rewrite Hr.
    unfold success_field. rewrite Hs. reflexivity.
Qed.

Lemma main_completes_on_failure_witness :
  exit_status
    (main (route (Raised (RequestException ConnectionError
                                           "Connection refused"))
                 (ok body_done)) sample_repr) = 0%Z
  /\ exit_status
       (main (route (ok body_bad_creds) (ok body_done)) sample_repr) = 0%Z
  /\ exit_status
       (main (route (ok body_welcome)
                    (Raised (RequestException Timeout "Read timed out.")))
             sample_repr) = 0%Z
  /\ (result
        (main (route (ok body_welcome) (ok body_not_authorized)) sample_repr)
      = Returned tt
      /\ exit_status
           (main (route (ok body_welcome) (ok body_not_authorized))
                 sample_repr) = 0%Z).
Proof.
  assert (Hl : forall admin_answer,
             login (route (ok body_welcome) admin_answer) sample_repr
             = ([Printed "🔐 Logging in...";
                 Posted login_request;
                 Printed "✅ Login successful! Welcome u"],
                Returned (PStr "T"))) by reflexivity.
  assert (Ht : truthy (PStr "T") = true) by reflexivity.
  assert (Hr1 : replied_2xx
                  (route (ok body_bad_creds) (ok body_done) login_request)
                  body_bad_creds) by served_2xx.
  assert (Hs1 : body_bad_creds !! "success" = Some (PBool false))
    by reflexivity.
  assert (Hr : replied_2xx
                 (route (ok body_welcome) (ok body_not_authorized)
                        (admin_request sample_repr (PStr "T")))
                 body_not_authorized) by served_2xx.
  assert (Hs : body_not_authorized !! "success" = Some (PBool false))
    by reflexivity.
  pose (W := main_completes_on_failure _ sample_repr
               (admin_refused _ _ _ _ _ (Hl _) Ht Hr Hs)).
  split; [|split; [|split]].
  - exact (proj1 (proj2
             (main_completes_on_failure
                (route (Raised (RequestException ConnectionError
                                                 "Connection refused"))
                       (ok body_done)) sample_repr
                (login_transport_failure _ _ _ (post_raises _ _))))).
  - exact (proj1 (proj2
             (main_completes_on_failure _ sample_repr
                (login_refused _ _ _ Hr1 Hs1)))).
  - exact (proj1 (proj2
             (main_completes_on_failure
                (route (ok body_welcome)
                       (Raised (RequestException Timeout "Read timed out.")))
                sample_repr
                (admin_transport_failure _ _ _ _ "Read timed out."
                   (Hl _) Ht (post_raises Timeout "Read timed out."))))).
  - exact (conj (proj1 W) (proj1 (proj2 W))).
Defined.

(** C8 as stated fails when a transport failure is taken, as in C3, to
    include every status outside 2xx: a login answer with status 300 passes
    the status check, its body [null] has no [get], and the
    [AttributeError] leaves [main()], so the script ends with exit status
    1. *)
Lemma main_status_300_null_raises :
  ~ (200 <= status_code multiple_choices_null < 300)%Z
  /\ main (route (Returned multiple_choices_null) (ok body_done)) sample_repr
     = ([Printed (str_mul "=" 60);
         Printed "WhatsApp Analytics - Make User Admin";
         Printed (str_mul "=" 60);
         Printed "🔐 Logging in...";
         Posted login_request],
        Raised (AttributeError "'NoneType' object has no attribute 'get'"))
  /\ exit_status
       (main (route (Returned multiple_choices_null) (ok body_done))
             sample_repr) = 1%Z.
Proof.
  split; [cbn; lia | split; reflexivity].
Qed.

(** C9 (amended).  In every run of [main()], a request to the admin endpoint
    is sent only after [login()] has returned a truthy token, and it is the
    request made for that token.  If a 2xx login response has
    [success == true], a [user] field that is missing or an object, and a
    [token] field that is missing, [None] or the empty string, [login()]
    returns that value, and [main()] prints the login failure banner and
    returns without a request to the admin endpoint. *)
Theorem admin_only_with_token network repr :
  (forall r,
      In (Posted r) (trace (main network repr)) ->
      req_url r = admin_url ->
      exists t token,
        login network repr = (t, Returned token)
        /\ truthy token = true
        /\ r = admin_request repr token)
  /\ (forall d,
         replied_2xx (network login_request) d ->
         d !! "success" = Some (PBool true) ->
         user_object_or_absent d ->
         d !! "token" = None \/ d !! "token" = Some PNone
         \/ d !! "token" = Some (PStr "") ->
         result (login network repr) = Returned (default PNone (d !! "token"))
         /\ main network repr =
              ((Printed (str_mul "=" 60)
                :: Printed "WhatsApp Analytics - Make User Admin"
                :: Printed (str_mul "=" 60)
                :: trace (login network repr)
                ++ [Printed (nl +:+ "❌ Failed to login. Exiting.")])%list,
               Returned tt)
         /\ forall r, In (Posted r) (trace (main network repr)) ->
                      req_url r <> admin_url).
Proof.
  split.
  - intros r Hin Hu.
    destruct (admin_post_after_token _ _ _ Hin Hu)
      as (t & token & rest & Hl & Ht & Hr & _).
    exists t, token. auto.
  - intros d Hr Hs Hu Htok.
    assert (Hl : login network repr
                 = ((login_start
                     ++ [Printed ("✅ Login successful! Welcome "
                                  +:+ fmt repr (greeted_name d))])%list,
                    Returned (default PNone (d !! "token")))).
    { rewrite login_run.
      apply replied_2xx_replied, replied_fetched in Hr. rewrite Hr.
      unfold success_field, greeted_name. rewrite Hs. cbn.
      destruct Hu as [Hu | [u Hu]]; rewrite Hu; reflexivity. }
    assert (Ht : truthy (default PNone (d !! "token")) = false)
      by (destruct Htok as [-> | [-> | ->]]; reflexivity).
    destruct (main_without_token _ _ _ _ Hl Ht) as [Hm Hp].
    rewrite Hm. rewrite Hl. cbn [trace result fst snd].
    split; [reflexivity | split; [reflexivity|]].
    intros r Hin Hurl. rewrite Hm in Hp. apply Hp in Hin. subst r.
    exact (endpoints_differ Hurl).
Qed.

Lemma admin_only_with_token_witness :
  result (login (route (ok body_no_token) (ok body_done)) sample_repr)
  = Returned PNone
  /\ main (route (ok body_no_token) (ok body_done)) sample_repr
     = ([Printed (str_mul "=" 60);
         Printed "WhatsApp Analytics - Make User Admin";
         Printed (str_mul "=" 60);
         Printed "🔐 Logging in...";
         Posted login_request;
         Printed "✅ Login successful! Welcome u";
         Printed (nl +:+ "❌ Failed to login. Exiting.")],
        Returned tt).
Proof.
  assert (Hr : replied_2xx
                 (route (ok body_no_token) (ok body_done) login_request)
                 body_no_token) by served_2xx.
  assert (Hs : body_no_token !! "success" = Some (PBool true)) by reflexivity.
  assert (Hu : user_object_or_absent body_no_token)
    by (right; eexists; reflexivity).
  assert (Ht : body_no_token !! "token" = None
               \/ body_no_token !! "token" = Some PNone
               \/ body_no_token !! "token" = Some (PStr ""))
    by (left; reflexivity).
  pose (W := proj2 (admin_only_with_token _ sample_repr)
               body_no_token Hr Hs Hu Ht).
  exact (conj (proj1 W) (proj1 (proj2 W))).
Defined.

(** C9 as stated fails when the token is missing and the [user] field is
    present but is not an object: [login()] raises instead of returning the
    absent token, and [main()] ends on that exception without the login
    failure banner. *)
Lemma login_no_token_user_text :
  replied_2xx (route (ok body_no_token_user_text) (ok body_done) login_request)
              body_no_token_user_text
  /\ body_no_token_user_text !! "success" = Some (PBool true)
  /\ body_no_token_user_text !! "token" = None
  /\ login (route (ok body_no_token_user_text) (ok body_done)) sample_repr
     = ([Printed "🔐 Logging in..."; Posted login_request],
        Raised (AttributeError "'str' object has no attribute 'get'"))
  /\ main (route (ok body_no_token_user_text) (ok body_done)) sample_repr
     = ([Printed (str_mul "=" 60);
         Printed "WhatsApp Analytics - Make User Admin";
         Printed (str_mul "=" 60);
         Printed "🔐 Logging in...";
         Posted login_request],
        Raised (AttributeError "'str' object has no attribute 'get'"))
  /\ result (login (route (ok body_no_token_user_text) (ok body_done))
                   sample_repr)
     <> Returned PNone.
Proof.
  split; [served_2xx | repeat split]. discriminate.
Qed.

(** ** The success test *)

Lemma fetched_with_success b r d :
  json_body r = Returned (PDict d) ->
  fetched (Returned (with_success b r))
  = match fetched (Returned r) with
    | Returned _ => Returned (PDict (<["success" := PBool b]> d))
    | Raised e => Raised e
    end.
Proof.
  intros Hj. unfold with_success. rewrite Hj. cbn.
  change (http_error_msg (Response (status_code r) (reason r) (url r) _))
    with (http_error_msg r).
  destruct (http_error_msg r); [reflexivity|]. now rewrite Hj.
Qed.

Lemma success_field_insert b (d : gmap string pyval) :
  success_field (<["success" := PBool b]> d) = PBool b.
Proof. unfold success_field. now rewrite lookup_insert_eq. Qed.

(** C10.  Both operations take the success branch by the truth value of the
    body's [success] field, not by comparing it with [True]: on a body that
    is an object, [login()] and [make_admin()] behave exactly as they do on
    the same response with [success] replaced by the boolean
    [bool(success)], so that a truthy value that is not a boolean acts as
    [true], and a missing field, whose [get] is [None], acts as [false].
    When the response passes the status check, [login()] prints its
    ["Login failed"] line exactly when the field is falsy, and
    [make_admin()] returns [bool(success)]. *)
Theorem success_by_truthiness network repr token r d :
  json_body r = Returned (PDict d) ->
  (network login_request = Returned r ->
   login network repr
   = login (always (Returned (with_success (truthy (success_field d)) r)))
           repr
   /\ (http_error_msg r = None ->
       (In (Printed ("❌ Login failed: "
                     +:+ fmt repr (default (PStr "Unknown error")
                                     (d !! "error"))))
           (trace (login network repr))
        <-> truthy (success_field d) = false)))
  /\ (network (admin_request repr token) = Returned r ->
      make_admin network repr token
      = make_admin
          (always (Returned (with_success (truthy (success_field d)) r)))
          repr token
      /\ (http_error_msg r = None ->
          result (make_admin network repr token)
          = Returned (truthy (success_field d))))
  /\ (d !! "success" = None -> truthy (success_field d) = false).
Proof.
  intros Hj. split; [|split].
  - intros Hn. split.
    + rewrite !login_run. unfold always.
      rewrite (fetched_with_success _ _ _ Hj), Hn. cbn [fetched].
      destruct (http_error_msg r); [reflexivity|]. rewrite Hj.
      rewrite success_field_insert. cbn [truthy].
      rewrite !lookup_insert_ne by discriminate. reflexivity.
    + intros Hs. rewrite login_run, Hn. cbn [fetched]. rewrite Hs, Hj.
      destruct (truthy (success_field d)).
      * split; [|discriminate]. intros Hin. exfalso.
        destruct (default (PDict ∅) (d !! "user"));
          cbn in Hin; intuition discriminate.
      * split; [reflexivity|]. intros _. cbn. auto.
  - intros Hn. split.
    + rewrite !make_admin_run. unfold always.
      rewrite (fetched_with_success _ _ _ Hj), Hn. cbn [fetched].
      destruct (http_error_msg r); [reflexivity|]. rewrite Hj.
      rewrite success_field_insert. cbn [truthy].
      rewrite !lookup_insert_ne by discriminate. reflexivity.
    + intros Hs. rewrite make_admin_run, Hn. cbn [fetched]. rewrite Hs, Hj.
      destruct (truthy (success_field d)); reflexivity.
  - intros Hs. unfold success_field. now rewrite Hs.
Qed.

Lemma success_by_truthiness_witness :
  truthy (PStr "false") = true
  /\ truthy (PInt 1) = true
  /\ login (route (ok body_success_text) (ok body_done)) sample_repr
     = login (always (ok body_token_only)) sample_repr
  /\ login (always (ok body_token_only)) sample_repr
     = ([Printed "🔐 Logging in...";
         Posted login_request;
         Printed "✅ Login successful! Welcome User"],
        Returned (PStr "T")).
Proof.
  assert (Hj : json_body (Response 200 "OK" BASE_URL
                                   (Returned (PDict body_success_text)))
               = Returned (PDict body_success_text)) by reflexivity.
  assert (Hn : route (ok body_success_text) (ok body_done) login_request
               = Returned (Response 200 "OK" BASE_URL
                                    (Returned (PDict body_success_text))))
    by reflexivity.
  split; [reflexivity | split; [reflexivity | split; [|reflexivity]]].
  exact (proj1 (proj1 (success_by_truthiness _ sample_repr PNone _ _ Hj) Hn)).
Defined.

(** ** Calls of [requests.post] *)

Lemma post_calls_app t t' :
  post_calls (t ++ t') = (post_calls t ++ post_calls t')%list.
Proof.
  induction t as [|[line|r] t IH]; cbn; [reflexivity | exact IH |].
  now rewrite IH.
Qed.

(** X1.  Whatever the call returns or raises, [login()] calls
    [requests.post] exactly once, with the login URL and the fixed
    credentials as JSON payload, and [make_admin(token)] calls it exactly
    once, with the admin URL, the bearer header made from [token] and no
    payload: the script itself never repeats a call and never calls
    [requests.post] with other arguments. *)
Theorem one_post_call_each network repr token :
  post_calls (trace (login network repr)) = [login_request]
  /\ post_calls (trace (make_admin network repr token))
     = [Request admin_url
                [("Authorization", "Bearer " +:+ fmt repr token);
                 ("Content-Type", "application/json")]
                None].
Proof.
  split.
  - rewrite login_run.
    destruct (fetched (network login_request)) as [v|e].
    + destruct v as [| b | n | f | s | l | d]; try reflexivity.
      destruct (truthy (success_field d)); [|reflexivity].
      destruct (default (PDict ∅) (d !! "user")); reflexivity.
    + destruct e; reflexivity.
  - rewrite make_admin_run.
    destruct (fetched (network (admin_request repr token))) as [v|e].
    + destruct v as [| b | n | f | s | l | d]; try reflexivity.
      destruct (truthy (success_field d)); reflexivity.
    + destruct e; reflexivity.
Qed.

(** X2.  The calls of [requests.post] in a run of [main()] are the login
    call, followed by the admin call for the value [login()] returned when
    that value is truthy, and by no call otherwise: [main()] never makes a
    third call and never makes the admin call first. *)
Theorem main_post_calls network repr :
  post_calls (trace (main network repr))
  = login_request
    :: match result (login network repr) with
       | Returned token =>
           if truthy token then [admin_request repr token] else []
       | Raised _ => []
       end.
Proof.
  assert (Hq : post_calls (trace (login network repr)) = [login_request]).
  { rewrite login_run.
    destruct (fetched (network login_request)) as [v|e].
    - destruct v as [| b | n | f | s | l | d]; try reflexivity.
      destruct (truthy (success_field d)); [|reflexivity].
      destruct (default (PDict ∅) (d !! "user")); reflexivity.
    - destruct e; reflexivity. }
  assert (Ha : forall token,
             post_calls (trace (make_admin network repr token))
             = [admin_request repr token]).
  { intros token. rewrite make_admin_run.
    destruct (fetched (network (admin_request repr token))) as [v|e].
    - destruct v as [| b | n | f | s | l | d]; try reflexivity.
      destruct (truthy (success_field d)); reflexivity.
    - destruct e; reflexivity. }
  rewrite main_run.
  destruct (login network repr) as [t [token|e]]; cbn [trace result fst snd] in *.
  - destruct (truthy token).
    + specialize (Ha token).
      destruct (make_admin network repr token) as [t' [success|e]];
        cbn [trace fst] in *; rewrite !post_calls_app, Hq, Ha.
      * destruct success; reflexivity.
      * reflexivity.
    + cbn [trace fst]. rewrite !post_calls_app, Hq. reflexivity.
  - rewrite post_calls_app, Hq. reflexivity.
Qed.

(** ** Exceptions that leave the script *)

(** X3.  No exception of the [requests] family ever leaves [login()],
    [make_admin()] or [main()]: whatever the call, the status check or the
    decoding raises inside that family is turned into a return value. *)
Theorem request_exceptions_never_escape network repr token kind msg :
  result (login network repr) <> Raised (RequestException kind msg)
  /\ result (make_admin network repr token)
     <> Raised (RequestException kind msg)
  /\ result (main network repr) <> Raised (RequestException kind msg).
Proof.
  assert (Hl : forall k m,
             result (login network repr) <> Raised (RequestException k m)).
  { intros k m. rewrite login_run.
    destruct (fetched (network login_request)) as [v|e].
    - destruct v as [| b | n | f | s | l | d]; try discriminate.
      destruct (truthy (success_field d)); [|discriminate].
      destruct (default (PDict ∅) (d !! "user")); discriminate.
    - destruct e; discriminate. }
  assert (Ha : forall tok k m,
             result (make_admin network repr tok)
             <> Raised (RequestException k m)).
  { intros tok k m. rewrite make_admin_run.
    destruct (fetched (network (admin_request repr tok))) as [v|e].
    - destruct v as [| b | n | f | s | l | d]; try discriminate.
      destruct (truthy (success_field d)); discriminate.
    - destruct e; discriminate. }
  split; [apply Hl | split; [apply Ha|]].
  rewrite main_run. specialize (Hl kind msg).
  destruct (login network repr) as [t [tok|e]]; cbn [result snd] in *;
    [|intros [= ->]; now apply Hl].
  destruct (truthy tok); [|discriminate].
  specialize (Ha tok kind msg).
  destruct (make_admin network repr tok) as [t' [success|e]];
    cbn [result snd] in *; [discriminate | intros [= ->]; now apply Ha].
Qed.


(** X5.  If the login call returns a response whose body decodes to an
    object with a [user] field that is missing or an object, and the admin
    call made with a truthy [token] field of that body returns a response
    whose body decodes to an object, then, whatever the status codes and
    whatever the other fields hold, [login()] returns, [make_admin()]
    returns on the token [login()] gave, [main()] returns and the exit
    status is 0.  Only the two calls of the run are constrained; [print] is
    taken to succeed. *)
Theorem object_bodies_never_raise network repr rl dl :
  network login_request = Returned rl ->
  json_body rl = Returned (PDict dl) ->
  user_object_or_absent dl ->
  (forall token,
      dl !! "token" = Some token ->
      truthy token = true ->
      exists ra da,
        network (admin_request repr token) = Returned ra
        /\ json_body ra = Returned (PDict da)) ->
  (exists t v, login network repr = (t, Returned v))
  /\ (forall t token,
         login network repr = (t, Returned token) ->
         truthy token = true ->
         exists t' b, make_admin network repr token = (t', Returned b))
  /\ result (main network repr) = Returned tt
  /\ exit_status (main network repr) = 0%Z.
Proof.
  intros Hn Hj Hu Hadm.
  assert (Hl : exists t v,
             login network repr = (t, Returned v)
             /\ (truthy v = true -> dl !! "token" = Some v)).
  { rewrite login_run, Hn. cbn [fetched].
    destruct (http_error_msg rl);
      [do 2 eexists; split; [reflexivity | discriminate]|].
    rewrite Hj.
    destruct (truthy (success_field dl));
      [|do 2 eexists; split; [reflexivity | discriminate]].
    destruct Hu as [Hu | [u Hu]]; rewrite Hu; cbn;
      (do 2 eexists; split; [reflexivity|]);
      (destruct (dl !! "token"); cbn; [reflexivity | discriminate]). }
  assert (Ha : forall token,
             dl !! "token" = Some token ->
             truthy token = true ->
             exists t' b, make_admin network repr token = (t', Returned b)).
  { intros token Hv Ht. rewrite make_admin_run.
    destruct (Hadm token Hv Ht) as (ra & da & -> & Hja). cbn [fetched].
    destruct (http_error_msg ra); [eauto|]. rewrite Hja.
    destruct (truthy (success_field da)); eauto. }
  destruct Hl as (t & v & Hl & Hv).
  split; [eauto | split].
  - intros t0 token Hl0 Ht. rewrite Hl in Hl0. injection Hl0 as <- <-.
    exact (Ha v (Hv Ht) Ht).
  - unfold exit_status. rewrite main_run, Hl.
    destruct (truthy v) eqn:Ht; [|split; reflexivity].
    destruct (Ha v (Hv eq_refl) Ht) as (t' & b & ->). split; reflexivity.
Qed.

Lemma object_bodies_never_raise_witness :
  result (main (route (ok body_welcome) (ok body_done)) sample_repr)
  = Returned tt
  /\ exit_status (main (route (ok body_welcome) (ok body_done)) sample_repr)
     = 0%Z.
Proof.
  assert (Hn : route (ok body_welcome) (ok body_done) login_request
               = Returned (Response 200 "OK" BASE_URL
                                    (Returned (PDict body_welcome))))
    by reflexivity.
  assert (Hj : json_body (Response 200 "OK" BASE_URL
                                   (Returned (PDict body_welcome)))
               = Returned (PDict body_welcome)) by reflexivity.
  assert (Hu : user_object_or_absent body_welcome)
    by (right; eexists; reflexivity).
  assert (Ha : forall token,
             body_welcome !! "token" = Some token ->
             truthy token = true ->
             exists ra da,
               route (ok body_welcome) (ok body_done)
                     (admin_request sample_repr token) = Returned ra
               /\ json_body ra = Returned (PDict da))
    by (intros token _ _; do 2 eexists; split; reflexivity).
  exact (proj2 (proj2
           (object_bodies_never_raise _ sample_repr _ _ Hn Hj Hu Ha))).
Defined.

(** ** Where the results come from *)

Lemma login_token_origin network repr t v :
  login network repr = (t, Returned v) ->
  truthy v = true ->
  exists d,
    replied (network login_request) d
    /\ truthy (success_field d) = true
    /\ user_object_or_absent d
    /\ d !! "token" = Some v.
Proof.
  rewrite login_run.
  destruct (fetched (network login_request)) as [x|e] eqn:Hf.
  - destruct x as [| b | n | f | s | l | d]; try discriminate.
    destruct (truthy (success_field d)) eqn:Hs.
    + destruct (default (PDict ∅) (d !! "user")) as [| | | | | |u] eqn:Hu;
        try discriminate.
      intros [= _ <-] Ht. exists d.
      split; [now apply replied_fetched|]. split; [exact Hs|]. split.
      * unfold user_object_or_absent.
        destruct (d !! "user") as [x|]; [|now left].
        cbn in Hu. subst x. right. now exists u.
      * destruct (d !! "token") as [x|]; [reflexivity | discriminate Ht].
    + intros [= _ <-] Ht. discriminate Ht.
  - destruct e; try discriminate. intros [= _ <-] Ht. discriminate Ht.
Qed.

Lemma login_on_truthy_success network repr d :
  replied (network login_request) d ->
  truthy (success_field d) = true ->
  user_object_or_absent d ->
  login network repr
  = ((login_start
      ++ [Printed ("✅ Login successful! Welcome "
                   +:+ fmt repr (greeted_name d))])%list,
     Returned (default PNone (d !! "token"))).
Proof.
  intros Hr Hs Hu. rewrite login_run.
  apply replied_fetched in Hr. rewrite Hr, Hs. unfold greeted_name.
  destruct Hu as [Hu | [u Hu]]; rewrite Hu; reflexivity.
Qed.

Lemma make_admin_true_origin network repr token t :
  make_admin network repr token = (t, Returned true) ->
  exists d,
    replied (network (admin_request repr token)) d
    /\ truthy (success_field d) = true.
Proof.
  rewrite make_admin_run.
  destruct (fetched (network (admin_request repr token))) as [x|e] eqn:Hf.
  - destruct x as [| b | n | f | s | l | d]; try discriminate.
    destruct (truthy (success_field d)) eqn:Hs; [|discriminate].
    intros _. exists d. split; [now apply replied_fetched | exact Hs].
  - destruct e; discriminate.
Qed.

Lemma make_admin_on_truthy_success network repr token d :
  replied (network (admin_request repr token)) d ->
  truthy (success_field d) = true ->
  make_admin network repr token
  = ((admin_start repr token
      ++ Printed ("✅ " +:+ fmt repr (default (PStr "Success!")
                                        (d !! "message")))
         :: admin_static_lines)%list,
     Returned true).
Proof.
  intros Hr Hs. rewrite make_admin_run.
  apply replied_fetched in Hr. now rewrite Hr, Hs.
Qed.

(** X6.  [login()] returns a truthy value [v], the only kind of value
    [main()] accepts as a token, exactly when the response passed the
    status check and its body is an object with a truthy [success], a
    [user] field that is missing or an object, and a [token] field equal to
    [v]: a token never comes from anywhere but the server's [token] field,
    and never from a refused or failed login. *)
Theorem login_token_iff network repr v :
  truthy v = true ->
  (result (login network repr) = Returned v
   <-> exists d,
         replied (network login_request) d
         /\ truthy (success_field d) = true
         /\ user_object_or_absent d
         /\ d !! "token" = Some v).
Proof.
  intros Ht. split.
  - intros H. destruct (login network repr) as [t o] eqn:Hl.
    cbn in H. subst o. exact (login_token_origin _ _ _ _ Hl Ht).
  - intros (d & Hr & Hs & Hu & Hv).
    rewrite (login_on_truthy_success _ _ _ Hr Hs Hu), Hv. reflexivity.
Qed.

Lemma login_token_iff_witness :
  result (login (route (ok body_welcome) (ok body_done)) sample_repr)
  = Returned (PStr "T").
Proof.
  assert (Ht : truthy (PStr "T") = true) by reflexivity.
  assert (H : exists d,
             replied (route (ok body_welcome) (ok body_done) login_request) d
             /\ truthy (success_field d) = true
             /\ user_object_or_absent d
             /\ d !! "token" = Some (PStr "T")).
  { exists body_welcome.
    split; [eexists; split; [reflexivity | split; reflexivity]|].
    split; [reflexivity|].
    split; [right; eexists; reflexivity | reflexivity]. }
  exact (proj2 (login_token_iff _ sample_repr (PStr "T") Ht) H).
Defined.

(** X7.  [make_admin()] returns [True] exactly when the response passed the
    status check and its body is an object with a truthy [success] field;
    neither a failed request nor any other body can produce [True]. *)
Theorem make_admin_true_iff network repr token :
  result (make_admin network repr token) = Returned true
  <-> exists d,
        replied (network (admin_request repr token)) d
        /\ truthy (success_field d) = true.
Proof.
  split.
  - intros H. destruct (make_admin network repr token) as [t o] eqn:Ha.
    cbn in H. subst o. exact (make_admin_true_origin _ _ _ _ Ha).
  - intros (d & Hr & Hs).
    now rewrite (make_admin_on_truthy_success _ _ _ _ Hr Hs).
Qed.

(** X8.  [main()] executes its statement
    [print("All done! You are now an admin.")], that is, a run has a
    [print] call whose whole argument is that text, exactly when both
    calls returned a response that passed the status check and carried an
    object with a truthy [success], the login body had a truthy [token]
    (and a [user] that is missing or an object), and the admin call was the
    one made with that token.  The statement is about [print] calls, not
    about the lines of standard output: a text supplied by the server is
    printed as part of another argument and may itself contain line
    breaks. *)
Theorem all_done_printed_iff network repr :
  In (Printed "🎉 All done! You are now an admin.")
     (trace (main network repr))
  <-> exists dl token da,
        replied (network login_request) dl
        /\ truthy (success_field dl) = true
        /\ user_object_or_absent dl
        /\ dl !! "token" = Some token
        /\ truthy token = true
        /\ replied (network (admin_request repr token)) da
        /\ truthy (success_field da) = true.
Proof.
  split.
  - intros Hin. rewrite main_run in Hin.
    pose proof (inner_event_not_final _ _ (login_events network repr))
      as [Hl1 _].
    destruct (login network repr) as [t [token|e]] eqn:Hl;
      cbn [trace fst] in *.
    + destruct (truthy token) eqn:Ht.
      * pose proof (inner_event_not_final _ _
                      (make_admin_events network repr token)) as [Ha1 _].
        destruct (make_admin network repr token) as [t' [success|e]] eqn:Ha;
          cbn [trace fst] in *.
        -- apply in_app_or in Hin as [Hin | Hin];
             [cbn in Hin; exfalso; intuition discriminate|].
           apply in_app_or in Hin as [Hin | Hin]; [tauto|].
           apply in_app_or in Hin as [Hin | Hin]; [tauto|].
           destruct success;
             [|cbn in Hin; exfalso; intuition discriminate].
           destruct (login_token_origin _ _ _ _ Hl Ht)
             as (dl & Hr & Hs & Hu & Hv).
           destruct (make_admin_true_origin _ _ _ _ Ha) as (da & Hr' & Hs').
           exists dl, token, da. auto 10.
        -- exfalso.
           apply in_app_or in Hin as [Hin | Hin];
             [cbn in Hin; intuition discriminate|].
           apply in_app_or in Hin as [Hin | Hin]; tauto.
      * exfalso.
        apply in_app_or in Hin as [Hin | Hin];
          [cbn in Hin; intuition discriminate|].
        apply in_app_or in Hin as [Hin | Hin]; [tauto|].
        cbn in Hin. intuition discriminate.
    + exfalso.
      apply in_app_or in Hin as [Hin | Hin];
        [cbn in Hin; intuition discriminate | tauto].
  - intros (dl & token & da & Hr & Hs & Hu & Hv & Ht & Hr' & Hs').
    rewrite main_run, (login_on_truthy_success _ _ _ Hr Hs Hu), Hv.
    cbn [default from_option id]. rewrite Ht.
    rewrite (make_admin_on_truthy_success _ _ _ _ Hr' Hs').
    cbn [trace fst].
    apply in_or_app; right. apply in_or_app; right. apply in_or_app; right.
    cbn. tauto.
Qed.

(** ** Closing [print] statements *)

Lemma closing_report_prints_app t t' :
  closing_report_prints (t ++ t')
  = (closing_report_prints t ++ closing_report_prints t')%list.
Proof.
  induction t as [|[line|r] t IH]; cbn [app closing_report_prints];
    [reflexivity | | exact IH].
  destruct (is_closing_report line); cbn; now rewrite IH.
Qed.

(** X9.  A run of [main()] executes exactly one of its three closing
    [print] statements when it returns and none when it raises, and which
    one is decided by the two results alone: the login failure banner when
    [login()] returned a falsy value, the success line when [make_admin()]
    returned [True], the failure line when it returned [False].  No
    [print] call of [login()] or [make_admin()] has one of the three
    reports as its whole argument, whatever text the server supplies. *)
Theorem one_closing_print network repr :
  closing_report_prints (trace (main network repr))
  = match result (login network repr) with
    | Raised _ => []
    | Returned token =>
        if truthy token then
          match result (make_admin network repr token) with
          | Returned true => ["🎉 All done! You are now an admin."]
          | Returned false => [nl +:+ "❌ Failed to complete the process."]
          | Raised _ => []
          end
        else [nl +:+ "❌ Failed to login. Exiting."]
    end.
Proof.
  assert (Hl : closing_report_prints (trace (login network repr)) = []).
  { rewrite login_run.
    destruct (fetched (network login_request)) as [v|e].
    - destruct v as [| b | n | f | s | l | d]; try reflexivity.
      destruct (truthy (success_field d)); [|reflexivity].
      destruct (default (PDict ∅) (d !! "user")); reflexivity.
    - destruct e; reflexivity. }
  assert (Ha : forall token,
             closing_report_prints (trace (make_admin network repr token)) = []).
  { intros token. rewrite make_admin_run.
    destruct (fetched (network (admin_request repr token))) as [v|e].
    - destruct v as [| b | n | f | s | l | d]; try reflexivity.
      destruct (truthy (success_field d)); reflexivity.
    - destruct e; reflexivity. }
  assert (Hh : closing_report_prints header_lines = []) by reflexivity.
  rewrite main_run.
  destruct (login network repr) as [t [token|e]];
    cbn [trace result fst snd] in *.
  - destruct (truthy token).
    + specialize (Ha token).
      destruct (make_admin network repr token) as [t' [success|e]];
        cbn [trace result fst snd] in *;
        rewrite !closing_report_prints_app, Hh, Hl, Ha.
      * destruct success; reflexivity.
      * reflexivity.
    + cbn [trace fst]. rewrite !closing_report_prints_app, Hh, Hl. reflexivity.
  - rewrite closing_report_prints_app, Hh, Hl. reflexivity.
Qed.

(** ** Error statuses *)

(** X10.  On a 4xx or 5xx status the body of the response is never read:
    two responses with the same status line and URL give the same run of
    [login()] and of [make_admin()], whatever their bodies are, so an
    explanation the server puts in the body of such a response is never
    shown. *)
Theorem error_status_hides_body repr token r r' :
  status_code r = status_code r' ->
  reason r = reason r' ->
  url r = url r' ->
  (400 <= status_code r < 600)%Z ->
  login (always (Returned r)) repr = login (always (Returned r')) repr
  /\ make_admin (always (Returned r)) repr token
     = make_admin (always (Returned r')) repr token.
Proof.
  intros Hc Hr Hu Hs.
  assert (He : http_error_msg r' = http_error_msg r)
    by (unfold http_error_msg; now rewrite Hc, Hr, Hu).
  apply error_status_raises in Hs as [msg Hs].
  rewrite !login_run, !make_admin_run. unfold always. cbn [fetched].
  rewrite He, Hs. split; reflexivity.
Qed.

Lemma error_status_hides_body_witness :
  login (always (Returned unauthorized_bad_creds)) sample_repr
  = login (always (Returned unauthorized)) sample_repr.
Proof.
  assert (Hc : status_code unauthorized_bad_creds = status_code unauthorized)
    by reflexivity.
  assert (Hr : reason unauthorized_bad_creds = reason unauthorized)
    by reflexivity.
  assert (Hu : url unauthorized_bad_creds = url unauthorized) by reflexivity.
  assert (Hs : (400 <= status_code unauthorized_bad_creds < 600)%Z)
    by (cbn; lia).
  exact (proj1 (error_status_hides_body sample_repr PNone _ _ Hc Hr Hu Hs)).
Defined.

(** ** Shape of the output *)

